(** * The d-prime sensitivity index of [bangmetric/dprime.py]

    A shallow embedding of [dprime] and of the array and floating-point
    operations it calls, followed by the properties of the function.

    Numbers are IEEE 754 binary64 values, taken from the Standard Library's
    executable specification [spec_float] (signed zeros, signed infinities,
    one NaN, round-to-nearest-even), so every definition below evaluates. *)

From Stdlib Require Import String ZArith List Bool Lia Permutation.
From Stdlib Require Import Floats.SpecFloat.
Import ListNotations.

(** ** binary64 arithmetic *)

Definition float64 : Type := spec_float.

Module F64.

Definition prec : Z := 53.
Definition emax : Z := 1024.

Definition add : float64 -> float64 -> float64 := SFadd prec emax.
Definition sub : float64 -> float64 -> float64 := SFsub prec emax.
Definition mul : float64 -> float64 -> float64 := SFmul prec emax.
Definition div : float64 -> float64 -> float64 := SFdiv prec emax.
Definition sqrt : float64 -> float64 := SFsqrt prec emax.
Definition opp : float64 -> float64 := SFopp.

(** Comparisons are those of C: every comparison with a NaN is false. *)
Definition eqb : float64 -> float64 -> bool := SFeqb.
Definition ltb : float64 -> float64 -> bool := SFltb.
Definition leb : float64 -> float64 -> bool := SFleb.

Definition nan : float64 := S754_nan.
Definition inf : float64 := S754_infinity false.
Definition ninf : float64 := S754_infinity true.
Definition zero : float64 := S754_zero false.

(** Conversion of an integer, as a C cast to [double] does it. *)
Definition of_Z (z : Z) : float64 := binary_normalize prec emax z 0 false.

Definition one : float64 := Eval cbv in of_Z 1.
Definition two : float64 := Eval cbv in of_Z 2.
Definition half : float64 := Eval cbv in div one two.

Definition isnan (x : float64) : bool :=
  match x with
  | S754_nan => true
  | _ => false
  end.

Definition isfinite (x : float64) : bool :=
  match x with
  | S754_zero _ | S754_finite _ _ _ => true
  | S754_infinity _ | S754_nan => false
  end.

(** Equality of two results as values: numerically equal ([==], under which
    the two zeros are equal), or both NaN. *)
Definition same_value (x y : float64) : bool :=
  eqb x y || (isnan x && isnan y).


End F64.

(** ** Exceptions *)

Inductive exn : Type :=
  | AssertionError
  | TypeError
  | ValueError (msg : string).

Inductive result (A : Type) : Type :=
  | Ok (v : A)
  | Raise (e : exn).

Arguments Ok {A} v.
Arguments Raise {A} e.

Definition bind {A B : Type} (c : result A) (k : A -> result B) : result B :=
  match c with
  | Ok v => k v
  | Raise e => Raise e
  end.

Notation "x <- c ;; k" := (bind c (fun x => k))
  (at level 61, c at next level, right associativity).
Notation "c ;;; k" := (bind c (fun _ => k))
  (at level 61, right associativity).

(** [assert cond] *)
Definition assert (cond : bool) : result unit :=
  if cond then Ok tt else Raise AssertionError.

(** ** numpy arrays

    An array is its shape and its elements in row-major order; numpy keeps
    the number of elements equal to the product of the shape
    ([well_formed]).  A scalar ([np.float64], or a Python float passed
    through [np.array]) is the array of shape [()]. *)

Record ndarray : Type := { shape : list nat; data : list float64 }.

Definition scalar (x : float64) : ndarray := {| shape := []; data := [x] |}.
Definition vec (l : list float64) : ndarray :=
  {| shape := [length l]; data := l |}.

Definition ndim (a : ndarray) : nat := length (shape a).
Definition size (a : ndarray) : nat := fold_right Nat.mul 1 (shape a).

Definition well_formed (a : ndarray) : Prop := length (data a) = size a.

(** [len(a)]: the first dimension; a 0-d array has no length. *)
Definition len (a : ndarray) : result nat :=
  match shape a with
  | [] => Raise TypeError
  | n :: _ => Ok n
  end.

Definition shape_eqb (a b : ndarray) : bool :=
  if list_eq_dec Nat.eq_dec (shape a) (shape b) then true else false.

(** Elementwise operations (operands of one shape; broadcasting is not
    needed by [dprime], whose rate arrays are checked to have equal shapes). *)
Definition arr_map (f : float64 -> float64) (a : ndarray) : ndarray :=
  {| shape := shape a; data := map f (data a) |}.

Fixpoint zip_with (f : float64 -> float64 -> float64) (l1 l2 : list float64)
  : list float64 :=
  match l1, l2 with
  | x :: l1', y :: l2' => f x y :: zip_with f l1' l2'
  | _, _ => []
  end.

Definition arr_map2 (f : float64 -> float64 -> float64) (a b : ndarray)
  : ndarray :=
  {| shape := shape a; data := zip_with f (data a) (data b) |}.

(** [np.isfinite(a).all()] *)
Definition np_isfinite_all (a : ndarray) : bool := forallb F64.isfinite (data a).

(** [a > 0], elementwise. *)
Definition np_greater_zero (a : ndarray) : list bool :=
  map (fun y => F64.ltb F64.zero y) (data a).

(** [~mask] *)
Definition np_invert (mask : list bool) : list bool := map negb mask.

(** [a[mask]] for a one-dimensional [a] and a boolean mask of its length:
    the elements at the positions where the mask is true, in order. *)
Fixpoint select (mask : list bool) (l : list float64) : list float64 :=
  match mask, l with
  | b :: mask', x :: l' => if b then x :: select mask' l' else select mask' l'
  | _, _ => []
  end.

Definition np_index (a : ndarray) (mask : list bool) : ndarray :=
  vec (select mask (data a)).

(** Sum of all elements, accumulated left to right from [0.].  The order in
    which numpy adds the elements of a long array is internal to the
    library; no property below depends on it. *)
Definition np_sum (l : list float64) : float64 := fold_left F64.add l F64.zero.

Definition of_nat (n : nat) : float64 := F64.of_Z (Z.of_nat n).

(** [a.mean()]: the sum of the elements over their number. *)
Definition np_mean (a : ndarray) : float64 :=
  F64.div (np_sum (data a)) (of_nat (size a)).

(** [a.var(ddof=ddof)]: the sum of the squared deviations from the mean,
    over [max(N - ddof, 0)]. *)
Definition np_var (a : ndarray) (ddof : nat) : float64 :=
  let arrmean := np_mean a in
  let x := map (fun v => F64.sub v arrmean) (data a) in
  let x := map (fun d => F64.mul d d) x in
  let rcount := Z.max (Z.of_nat (size a) - Z.of_nat ddof) 0 in
  F64.div (np_sum x) (F64.of_Z rcount).

(** [np.maximum] and [np.minimum]: a NaN operand gives NaN. *)
Definition np_maximum (x1 x2 : float64) : float64 :=
  if F64.leb x2 x1 || F64.isnan x1 then x1 else x2.

Definition np_minimum (x1 x2 : float64) : float64 :=
  if F64.leb x1 x2 || F64.isnan x1 then x1 else x2.

(** [np.clip(a, a_min, a_max)], which numpy documents as equivalent to
    [np.minimum(a_max, np.maximum(a, a_min))], without any check that
    [a_min <= a_max].  Where a value and a bound are equal as numbers but
    differ as floats (the two zeros), which of them numpy returns is left
    to the library; here it is the bound. *)
Definition clip1 (a_min a_max x : float64) : float64 :=
  np_minimum a_max (np_maximum x a_min).

Definition np_clip (a : ndarray) (a_min a_max : float64) : ndarray :=
  arr_map (clip1 a_min a_max) a.

(** ** What [dprime] takes from outside the module

    [scipy.stats.norm.ppf] is library code and [confusion_matrix_stats]
    lives in [bangmetric/utils.py]; the properties below hold whatever
    they compute, so both are parameters:
    - [ndtri q] is the standard normal quantile of a [q] strictly between
      0 and 1;
    - [confusion_matrix_stats M kw] returns [(P, N, TP, FN, FP, TN)], one
      entry per grouping, or raises. *)

Definition stats : Type :=
  (ndarray * ndarray * ndarray * ndarray * ndarray * ndarray)%type.

Class Externals : Type := {
  kwargs : Type;
  ndtri : float64 -> float64;
  confusion_matrix_stats : ndarray -> kwargs -> result stats
}.

Section Model.

Context {E : Externals}.

(** [norm.ppf] on one value: [ndtri] inside (0, 1), the ends of the support
    at 0 and 1 (the convention the spec states: the quantile of 0 is
    [-inf], that of 1 is [+inf]), and scipy's bad value NaN elsewhere. *)
Definition norm_ppf1 (q : float64) : float64 :=
  if F64.ltb F64.zero q && F64.ltb q F64.one then ndtri q
  else if F64.eqb q F64.zero then F64.ninf
  else if F64.eqb q F64.one then F64.inf
  else F64.nan.

Definition norm_ppf (q : ndarray) : ndarray := arr_map norm_ppf1 q.

Definition DEFAULT_DPRIME_MODE : string := "binary".

(** The two forms the inputs are brought to by the first [if] chain. *)
Inductive canonical : Type :=
  | Samples (pos neg : ndarray)
  | Rates (TPR FPR : ndarray).

(** [# -- basic checks and conversion] *)
Definition resolve (A B : ndarray) (mode : string) (kw : kwargs)
  : result canonical :=
  if String.eqb mode "sample" then
    Ok (Samples A B)
  else if String.eqb mode "binary" then
    let y_true := A in
    let y_pred := B in
    n_true <- len y_true ;;
    n_pred <- len y_pred ;;
    assert (Nat.eqb n_true n_pred) ;;;
    assert (np_isfinite_all y_true) ;;;
    assert (Nat.eqb (ndim y_true) 1) ;;;
    assert (Nat.eqb (ndim y_pred) 1) ;;;
    let i_pos := np_greater_zero y_true in
    let i_neg := np_invert i_pos in
    let pos := np_index y_pred i_pos in
    let neg := np_index y_pred i_neg in
    Ok (Samples pos neg)
  else if String.eqb mode "rate" then
    let TPR := A in
    let FPR := B in
    assert (shape_eqb TPR FPR) ;;;
    Ok (Rates TPR FPR)
  else if String.eqb mode "confusionmat" then
    s <- confusion_matrix_stats A kw ;;
    let '(P, N, TP, _, FP, _) := s in
    let TPR := arr_map2 F64.div TP P in
    let FPR := arr_map2 F64.div FP N in
    Ok (Rates TPR FPR)
  else
    Raise (ValueError "Invalid mode").

Definition not_enough_positive : string :=
  "Not enough positive samplesto estimate the variance".
Definition not_enough_negative : string :=
  "Not enough negative samplesto estimate the variance".

(** The formula of the sample family, on the two statistics of each side. *)
Definition dprime_formula (pos_mean neg_mean pos_var neg_var : float64)
  : float64 :=
  let num := F64.sub pos_mean neg_mean in
  let div := F64.sqrt (F64.div (F64.add pos_var neg_var) F64.two) in
  F64.div num div.

(** [# -- compute d'], branch [mode in ['sample', 'binary']] *)
Definition dprime_samples (pos neg : ndarray) : result ndarray :=
  assert (np_isfinite_all pos) ;;;
  assert (np_isfinite_all neg) ;;;
  if Nat.leb (size pos) 1 then Raise (ValueError not_enough_positive)
  else if Nat.leb (size neg) 1 then Raise (ValueError not_enough_negative)
  else
    let pos_mean := np_mean pos in
    let neg_mean := np_mean neg in
    let pos_var := np_var pos 1 in
    let neg_var := np_var neg 1 in
    Ok (scalar (dprime_formula pos_mean neg_mean pos_var neg_var)).

(** [# -- compute d'], branch of the modes rate and confusionmat *)
Definition dprime_rates (TPR FPR : ndarray) : ndarray :=
  arr_map2 F64.sub (norm_ppf TPR) (norm_ppf FPR).

(** The value of [dp] before the last statement clips it. *)
Definition dprime_unclipped (A B : ndarray) (mode : string) (kw : kwargs)
  : result ndarray :=
  c <- resolve A B mode kw ;;
  match c with
  | Samples pos neg => dprime_samples pos neg
  | Rates TPR FPR => Ok (dprime_rates TPR FPR)
  end.

(** [dprime(A, B, mode, max_value, min_value, **kwargs)] *)
Definition dprime (A B : ndarray) (mode : string)
  (max_value min_value : float64) (kw : kwargs) : result ndarray :=
  dp <- dprime_unclipped A B mode kw ;;
  Ok (np_clip dp min_value max_value).

End Model.

(** ** The statements of the specification, as definitions *)

(** The recognised mode tags. *)
Definition recognised_modes : list string :=
  ["binary"; "sample"; "rate"; "confusionmat"]%string.

Definition recognised (mode : string) : bool :=
  existsb (String.eqb mode) recognised_modes.

(** The partition of binary mode in the words of the spec: [pos] holds the
    predictions whose label is [> 0], [neg] those whose label is [<= 0]. *)
Definition spec_pos (labels preds : list float64) : list float64 :=
  map snd (filter (fun p => F64.ltb F64.zero (fst p)) (combine labels preds)).

Definition spec_neg (labels preds : list float64) : list float64 :=
  map snd (filter (fun p => F64.leb (fst p) F64.zero) (combine labels preds)).

(** The formula in the words of the spec, on the two sample sets:
    arithmetic means, and variances with Bessel's correction (the sum of
    squared deviations over [n - 1]). *)
Definition sample_mean (l : list float64) : float64 :=
  F64.div (np_sum l) (of_nat (length l)).

Definition bessel_variance (l : list float64) : float64 :=
  let m := sample_mean l in
  F64.div (np_sum (map (fun x => F64.mul (F64.sub x m) (F64.sub x m)) l))
          (of_nat (length l - 1)).

Definition spec_dprime (pos neg : list float64) : float64 :=
  F64.div (F64.sub (sample_mean pos) (sample_mean neg))
          (F64.sqrt (F64.div (F64.add (bessel_variance pos)
                                      (bessel_variance neg)) F64.two)).

(** A message names a mode tag when the tag occurs in it. *)
Definition mentions (tag msg : string) : bool :=
  match String.index 0 tag msg with
  | Some _ => true
  | None => false
  end.

(** An array has a NaN or infinite element. *)
Definition has_nonfinite (a : ndarray) : bool :=
  existsb (fun x => negb (F64.isfinite x)) (data a).

(** Every element of an array satisfies a test. *)
Definition all_elements (p : float64 -> bool) (a : ndarray) : bool :=
  forallb p (data a).

(** The sign bit of a value; a NaN carries none here. *)
Definition signbit (x : float64) : bool :=
  match x with
  | S754_zero s | S754_infinity s | S754_finite s _ _ => s
  | S754_nan => false
  end.

(** A mask of labels: which of them are strictly positive. *)
Definition positive_mask (labels : list float64) : list bool :=
  map (fun y => F64.ltb F64.zero y) labels.

(** ** An environment to run the model in

    The properties are proved for every [Externals]; the examples need one.
    Here the quantile inside (0, 1) is its first-order expansion about 1/2,
    [sqrt(2 pi) (q - 1/2)], which is exact at 1/2. *)

Definition pi : float64 := S754_finite false 7074237752028440 (-51).

Definition ndtri_order1 (q : float64) : float64 :=
  F64.mul (F64.sqrt (F64.mul F64.two pi)) (F64.sub q F64.half).

Fixpoint rows_of (n_rows width : nat) (l : list float64)
  : list (list float64) :=
  match n_rows with
  | O => []
  | S k => firstn width l :: rows_of k width (skipn width l)
  end.

Definition diagonal (rows : list (list float64)) : list float64 :=
  map (fun ir => nth (fst ir) (snd ir) F64.zero)
      (combine (seq 0 (length rows)) rows).

Definition column_sums (width : nat) (rows : list (list float64))
  : list float64 :=
  map (fun j => np_sum (map (fun row => nth j row F64.zero) rows))
      (seq 0 width).

(** Modelled from the spec: [confusion_matrix_stats] of [bangmetric/utils.py],
    which is not among the sources.  The spec describes it as the collaborator
    that returns, per grouping, the counts P, N, TP, FN, FP and TN of a
    confusion matrix whose entry (r, c) counts the samples of true class r
    predicted as class c.  This instance takes each class against the rest
    and applies no fudge factor. *)
Definition one_vs_rest_stats (M : ndarray) (_ : unit) : result stats :=
  match shape M with
  | [n_rows; width] =>
      let rows := rows_of n_rows width (data M) in
      let total := np_sum (data M) in
      let P := map np_sum rows in
      let TP := diagonal rows in
      let FN := zip_with F64.sub P TP in
      let N := map (fun p => F64.sub total p) P in
      let FP := zip_with F64.sub (column_sums width rows) TP in
      let TN := zip_with F64.sub N FP in
      Ok (vec P, vec N, vec TP, vec FN, vec FP, vec TN)
  | _ => Raise AssertionError
  end.

Definition example_env : Externals :=
  {| kwargs := unit;
     ndtri := ndtri_order1;
     confusion_matrix_stats := one_vs_rest_stats |}.

(** Integers as floats, to write the examples. *)
Definition ints (l : list Z) : list float64 := map F64.of_Z l.

(** [dprime] in the example environment. *)
Definition run (A B : ndarray) (mode : string) (max_value min_value : float64)
  : result ndarray :=
  @dprime example_env A B mode max_value min_value tt.

(** The d-prime of the running example, [2 / sqrt(0.5)]. *)
Definition dprime_2301 : float64 := S754_finite false 6369051672525772 (-51).

(** The matrix [[8, 2], [3, 7]]. *)
Definition matrix_8237 : ndarray :=
  {| shape := [2; 2]; data := ints [8; 2; 3; 7]%Z |}.

(** The matrix [[0, 0], [3, 7]]: no sample of the first class. *)
Definition matrix_0037 : ndarray :=
  {| shape := [2; 2]; data := ints [0; 0; 3; 7]%Z |}.

(** * Properties *)

(** ** Facts of binary64 arithmetic *)

Module F64Facts.
Import F64.


Lemma compare_refl (x : float64) : isnan x = false -> SFcompare x x = Some Eq.
Proof.
  destruct x as [s|s| |s m e]; simpl; intros H; try discriminate;
    destruct s; try reflexivity;
    rewrite Z.compare_refl, Pos.compare_cont_refl; reflexivity.
Qed.


Lemma leb_refl (x : float64) : isnan x = false -> leb x x = true.
Proof. intros H. unfold leb, SFleb. now rewrite compare_refl. Qed.



Lemma ltb_not_nan (x y : float64) :
  ltb x y = true -> isnan x = false /\ isnan y = false.
Proof.
  unfold ltb, SFltb.
  destruct x as [sx|sx| |sx mx ex], y as [sy|sy| |sy my ey]; simpl;
    intros H; try discriminate; auto.
Qed.

Ltac order_cases :=
  repeat match goal with
  | |- context [Pos.compare_cont Eq ?a ?b] =>
      change (Pos.compare_cont Eq a b) with (Pos.compare a b)
  | H : context [Pos.compare_cont Eq ?a ?b] |- _ =>
      change (Pos.compare_cont Eq a b) with (Pos.compare a b) in H
  end;
  repeat match goal with
  | H : context [Z.compare ?a ?b] |- _ =>
      destruct (Z.compare_spec a b); simpl in H; try discriminate H
  | H : context [Pos.compare ?a ?b] |- _ =>
      destruct (Pos.compare_spec a b); simpl in H; try discriminate H
  | |- context [Z.compare ?a ?b] =>
      destruct (Z.compare_spec a b); simpl
  | |- context [Pos.compare ?a ?b] =>
      destruct (Pos.compare_spec a b); simpl
  end;
  try reflexivity; try discriminate; try lia.

Lemma ltb_leb_trans (x y z : float64) :
  ltb x y = true -> leb y z = true -> leb x z = true.
Proof.
  unfold ltb, leb, SFltb, SFleb.
  destruct x as [sx|sx| |sx mx ex], y as [sy|sy| |sy my ey],
           z as [sz|sz| |sz mz ez]; simpl;
    try destruct sx; try destruct sy; try destruct sz; simpl;
    intros H1 H2; try discriminate; try reflexivity; order_cases.
Qed.


Lemma opp_involutive (x : float64) : opp (opp x) = x.
Proof. destruct x as [s|s| |s m e]; simpl; try rewrite negb_involutive; reflexivity. Qed.

Lemma add_comm (x y : float64) : add x y = add y x.
Proof.
  unfold add.
  destruct x as [sx|sx| |sx mx ex], y as [sy|sy| |sy my ey]; simpl;
    try destruct sx; try destruct sy; try reflexivity;
    rewrite (Z.min_comm ey ex); f_equal; apply Z.add_comm.
Qed.

Lemma binary_round_aux_opp (s : bool) (m e : Z) (l : location) :
  binary_round_aux prec emax (negb s) m e l
  = opp (binary_round_aux prec emax s m e l).
Proof.
  unfold binary_round_aux.
  destruct (shr_fexp prec emax m e l) as [mrs' e'].
  destruct (shr_fexp prec emax _ e' loc_Exact) as [mrs'' e''].
  destruct (shr_m mrs''); try reflexivity.
  destruct (Z.leb e'' (emax - prec)); reflexivity.
Qed.

Lemma binary_round_opp (s : bool) (m : positive) (e : Z) :
  binary_round prec emax (negb s) m e = opp (binary_round prec emax s m e).
Proof.
  unfold binary_round.
  destruct (shl_align m e _) as [mz ez]. apply binary_round_aux_opp.
Qed.

Lemma binary_normalize_opp (m e : Z) :
  m <> 0%Z ->
  binary_normalize prec emax (- m) e false
  = opp (binary_normalize prec emax m e false).
Proof.
  destruct m as [|p|p]; intros H; simpl; [congruence| |];
    [apply (binary_round_opp false) | apply (binary_round_opp true)].
Qed.

(** Swapping the operands of a subtraction negates the difference, except
    that a difference which is exactly zero is [+0] both ways. *)
Lemma sub_swap (x y : float64) :
  sub y x = opp (sub x y) \/ (sub x y = zero /\ sub y x = zero).
Proof.
  unfold sub.
  destruct x as [sx|sx| |sx mx ex], y as [sy|sy| |sy my ey];
    try (repeat match goal with s : bool |- _ => destruct s end;
         simpl; auto; fail).
  unfold SFsub. rewrite (Z.min_comm ey ex).
  set (a := cond_Zopp sx _). set (b := cond_Zopp sy _).
  destruct (Z.eq_dec (a - b) 0) as [Hz|Hz].
  - right. rewrite Hz. replace (b - a)%Z with 0%Z by lia. split; reflexivity.
  - left. replace (b - a)%Z with (- (a - b))%Z by lia.
    apply binary_normalize_opp; exact Hz.
Qed.

Lemma div_opp_l (x y : float64) : div (opp x) y = opp (div x y).
Proof.
  unfold div.
  destruct x as [sx|sx| |sx mx ex], y as [sy|sy| |sy my ey]; simpl;
    try reflexivity;
    try (destruct sx, sy; reflexivity).
  destruct (SFdiv_core_binary prec emax (Z.pos mx) ex (Z.pos my) ey)
    as [[mz ez] lz].
  rewrite <- binary_round_aux_opp. f_equal. destruct sx, sy; reflexivity.
Qed.

Lemma div_zero_l (y : float64) :
  same_value (div zero y) (opp (div zero y)) = true.
Proof. destruct y as [s|s| |s m e]; try destruct s; reflexivity. Qed.

Lemma same_value_refl (x : float64) : same_value x x = true.
Proof.
  unfold same_value, eqb, SFeqb.
  destruct (isnan x) eqn:H.
  - now rewrite orb_true_r.
  - now rewrite compare_refl.
Qed.

End F64Facts.

(** ** Facts of the array operations *)

Section Clipping.
Import F64 F64Facts.

Lemma leb_ninf (x : float64) : isnan x = false -> leb ninf x = true.
Proof. destruct x as [s|s| |s m e]; try destruct s; simpl; auto. Qed.

Lemma leb_inf (x : float64) : leb inf x = true -> x = inf.
Proof.
  destruct x as [s|s| |s m e]; try destruct s; simpl; intros H;
    try discriminate; reflexivity.
Qed.

Lemma np_maximum_nan (x lo : float64) :
  isnan x = true -> np_maximum x lo = x.
Proof. intros H. unfold np_maximum. rewrite H, orb_true_r. reflexivity. Qed.

(** With the default bounds the clip returns its argument, NaN included. *)
Lemma clip1_default (x : float64) : clip1 ninf inf x = x.
Proof.
  unfold clip1.
  assert (Hm : np_maximum x ninf = x).
  { unfold np_maximum. destruct (isnan x) eqn:Hn.
    - now rewrite orb_true_r.
    - now rewrite (leb_ninf x Hn). }
  rewrite Hm. unfold np_minimum. simpl (isnan inf). rewrite orb_false_r.
  destruct (leb inf x) eqn:Hi; [symmetry; now apply leb_inf | reflexivity].
Qed.

(** [np.maximum x lo] of two numbers is a number at least [lo]. *)
Lemma np_maximum_ge (x lo : float64) :
  isnan x = false -> isnan lo = false ->
  leb lo (np_maximum x lo) = true /\ isnan (np_maximum x lo) = false
  /\ (np_maximum x lo = x /\ leb lo x = true \/ np_maximum x lo = lo).
Proof.
  intros Hx Hl. unfold np_maximum. rewrite Hx, orb_false_r.
  destruct (leb lo x) eqn:H; auto using leb_refl.
Qed.


(** With crossed bounds, clipping a number gives the upper bound. *)
Lemma clip1_crossed (lo hi x : float64) :
  ltb hi lo = true -> isnan x = false -> clip1 lo hi x = hi.
Proof.
  intros Hlt Hx. destruct (ltb_not_nan hi lo Hlt) as [Hh Hl].
  destruct (np_maximum_ge x lo Hx Hl) as (Hge & _ & _).
  unfold clip1, np_minimum.
  now rewrite (ltb_leb_trans hi lo _ Hlt Hge).
Qed.

End Clipping.

Section Arrays.
Import F64 F64Facts.

Lemma size_vec (l : list float64) : size (vec l) = length l.
Proof. unfold size, vec. simpl. apply Nat.mul_1_r. Qed.

Lemma arr_map_id (f : float64 -> float64) (a : ndarray) :
  (forall x, f x = x) -> arr_map f a = a.
Proof.
  intros H. destruct a as [sh d]. unfold arr_map. simpl. f_equal.
  induction d as [|x d IH]; simpl; [reflexivity | now rewrite H, IH].
Qed.

Lemma np_clip_default (a : ndarray) : np_clip a ninf inf = a.
Proof. apply arr_map_id, clip1_default. Qed.

Lemma nth_error_zip_with (f : float64 -> float64 -> float64)
  (l1 l2 : list float64) (i : nat) (x y : float64) :
  nth_error l1 i = Some x -> nth_error l2 i = Some y ->
  nth_error (zip_with f l1 l2) i = Some (f x y).
Proof.
  revert l2 i. induction l1 as [|a l1 IH]; intros [|b l2] [|i]; simpl;
    try discriminate.
  - now intros [= ->] [= ->].
  - apply IH.
Qed.

(** The boolean index against the filter of the paired lists. *)
Lemma select_filter (p : float64 -> bool) (labels preds : list float64) :
  select (map p labels) preds
  = map snd (filter (fun lp => p (fst lp)) (combine labels preds)).
Proof.
  revert preds. induction labels as [|a labels IH]; intros [|b preds]; simpl;
    try reflexivity.
  destruct (p a); simpl; now rewrite IH.
Qed.

Lemma filter_split_length {A : Type} (p : A -> bool) (l : list A) :
  length (filter p l) + length (filter (fun x => negb (p x)) l) = length l.
Proof.
  induction l as [|a l IH]; simpl; [reflexivity|].
  destruct (p a); simpl; lia.
Qed.

Lemma filter_split_perm {A : Type} (p : A -> bool) (l : list A) :
  Permutation (filter p l ++ filter (fun x => negb (p x)) l) l.
Proof.
  induction l as [|a l IH]; simpl; [constructor|].
  destruct (p a); simpl.
  - now constructor.
  - symmetry. apply Permutation_cons_app. now symmetry.
Qed.

Lemma combine_map_snd (l1 l2 : list float64) :
  length l1 = length l2 -> map snd (combine l1 l2) = l2.
Proof.
  revert l2. induction l1 as [|a l1 IH]; intros [|b l2]; simpl;
    try discriminate; try reflexivity.
  intros [= H]. now rewrite IH.
Qed.

(** On a number, "not greater than zero" is "at most zero". *)
Lemma not_gt_zero (y : float64) :
  isfinite y = true -> negb (ltb zero y) = leb y zero.
Proof. destruct y as [s|s| |s m e]; try destruct s; simpl; try discriminate; reflexivity. Qed.

Lemma select_invert (labels preds : list float64) :
  forallb isfinite labels = true ->
  select (np_invert (map (fun y => ltb zero y) labels)) preds
  = spec_neg labels preds.
Proof.
  unfold np_invert, spec_neg. rewrite map_map.
  revert preds. induction labels as [|a labels IH]; intros [|b preds]; simpl;
    try reflexivity; intros H; apply andb_prop in H; destruct H as [Ha Hl].
  rewrite (not_gt_zero a Ha). destruct (leb a zero); simpl; now rewrite IH.
Qed.

Lemma norm_ppf1_nonfinite `{Externals} (q : float64) :
  isfinite q = false -> norm_ppf1 q = nan.
Proof. destruct q as [s|s| |s m e]; try destruct s; try discriminate; reflexivity. Qed.

Lemma clip1_of_nan (lo hi x : float64) : isnan x = true -> clip1 lo hi x = nan.
Proof.
  intros Hx. destruct x; try discriminate. unfold clip1.
  rewrite np_maximum_nan by reflexivity. unfold np_minimum.
  destruct hi as [s|s| |s m e]; try destruct s; reflexivity.
Qed.

Lemma sub_nan_r (x : float64) : sub x nan = nan.
Proof. destruct x; reflexivity. Qed.

Lemma recognised_false (mode : string) :
  recognised mode = false ->
  String.eqb mode "sample" = false /\ String.eqb mode "binary" = false
  /\ String.eqb mode "rate" = false /\ String.eqb mode "confusionmat" = false.
Proof.
  unfold recognised, recognised_modes. simpl. intros H.
  repeat (apply orb_false_elim in H; destruct H as [? H]). auto.
Qed.

End Arrays.

Section Properties.

Context {E : Externals}.
Import F64 F64Facts.

(** ** The sample family *)

Lemma np_mean_spec (a : ndarray) :
  well_formed a -> np_mean a = sample_mean (data a).
Proof. unfold np_mean, sample_mean, well_formed. now intros ->. Qed.

Lemma np_var_spec (a : ndarray) :
  well_formed a -> 1 < size a -> np_var a 1 = bessel_variance (data a).
Proof.
  intros Hwf Hn. unfold np_var, bessel_variance.
  rewrite (np_mean_spec a Hwf), map_map. unfold well_formed in Hwf.
  rewrite Hwf. unfold of_nat. do 2 f_equal. lia.
Qed.

(** Past its checks, the sample branch returns the formula on the means
    and variances of the two sides. *)
Lemma dprime_samples_ok (pos neg : ndarray) :
  np_isfinite_all pos = true -> np_isfinite_all neg = true ->
  1 < size pos -> 1 < size neg ->
  dprime_samples pos neg
  = Ok (scalar (dprime_formula (np_mean pos) (np_mean neg)
                               (np_var pos 1) (np_var neg 1))).
Proof.
  intros Hp Hn Sp Sn. unfold dprime_samples. rewrite Hp, Hn. simpl.
  destruct (Nat.leb_spec (size pos) 1); [lia|].
  destruct (Nat.leb_spec (size neg) 1); [lia|]. reflexivity.
Qed.

Lemma dprime_sample_mode (A B : ndarray) (mx mn : float64) (kw : kwargs) :
  dprime A B "sample" mx mn kw
  = (dp <- dprime_samples A B ;; Ok (np_clip dp mn mx)).
Proof. reflexivity. Qed.

(** C1. For finite sample sets [pos] and [neg] of more than one element
    each, [dprime(pos, neg, mode='sample')] with the default bounds returns
    the difference of the arithmetic means over the square root of the
    unweighted average of the two Bessel-corrected variances. *)
Theorem dprime_sample_formula (pos neg : ndarray) (kw : kwargs) :
  well_formed pos -> well_formed neg ->
  np_isfinite_all pos = true -> np_isfinite_all neg = true ->
  1 < size pos -> 1 < size neg ->
  dprime pos neg "sample" inf ninf kw
  = Ok (scalar (spec_dprime (data pos) (data neg))).
Proof.
  intros Wp Wn Hp Hn Sp Sn.
  rewrite dprime_sample_mode, (dprime_samples_ok pos neg Hp Hn Sp Sn).
  simpl bind. rewrite np_clip_default. unfold dprime_formula, spec_dprime.
  now rewrite !np_mean_spec, !np_var_spec.
Qed.

(** Swapping the two sides of the formula negates it, as values. *)
Lemma dprime_formula_swap (pm nm pv nv : float64) :
  same_value (dprime_formula pm nm pv nv) (opp (dprime_formula nm pm nv pv))
  = true.
Proof.
  unfold dprime_formula. rewrite (add_comm nv pv).
  set (d := sqrt (div (add pv nv) two)).
  destruct (sub_swap pm nm) as [Hs | [Hz Hz']].
  - rewrite Hs, div_opp_l, opp_involutive. apply same_value_refl.
  - rewrite Hz, Hz'. apply div_zero_l.
Qed.

(** C8. For finite sample sets of more than one element each,
    [dprime(pos, neg, mode='sample')] with the default bounds is the
    negation of [dprime(neg, pos, mode='sample')]: both calls return, and
    the two values are numerically equal after negating one, or both NaN. *)
Theorem dprime_sample_antisymmetric (pos neg : ndarray) (kw : kwargs) :
  np_isfinite_all pos = true -> np_isfinite_all neg = true ->
  1 < size pos -> 1 < size neg ->
  exists d d' : float64,
    dprime pos neg "sample" inf ninf kw = Ok (scalar d)
    /\ dprime neg pos "sample" inf ninf kw = Ok (scalar d')
    /\ same_value d (opp d') = true.
Proof.
  intros Hp Hn Sp Sn.
  exists (dprime_formula (np_mean pos) (np_mean neg) (np_var pos 1) (np_var neg 1)),
         (dprime_formula (np_mean neg) (np_mean pos) (np_var neg 1) (np_var pos 1)).
  rewrite !dprime_sample_mode.
  rewrite (dprime_samples_ok pos neg Hp Hn Sp Sn),
          (dprime_samples_ok neg pos Hn Hp Sn Sp).
  simpl bind. rewrite !np_clip_default.
  repeat split. apply dprime_formula_swap.
Qed.

(** ** Binary mode *)

Lemma resolve_binary (labels preds : list float64) (kw : kwargs) :
  length labels = length preds -> forallb isfinite labels = true ->
  resolve (vec labels) (vec preds) "binary" kw
  = Ok (Samples (vec (spec_pos labels preds)) (vec (spec_neg labels preds))).
Proof.
  intros Hlen Hfin. unfold resolve. simpl.
  rewrite Hlen, Nat.eqb_refl. simpl.
  unfold np_isfinite_all. simpl. rewrite Hfin. simpl.
  unfold np_index, np_greater_zero. simpl.
  now rewrite select_filter, (select_invert labels preds Hfin).
Qed.

(** C2. Binary mode is sample mode after the partition by the sign of the
    label: for finite labels [A] and predictions [B] of the same length,
    [dprime(A, B, mode='binary')] is [dprime(pos, neg, mode='sample')],
    where [pos] are the predictions with [A > 0] and [neg] those with
    [A <= 0], whatever the bounds (errors included). *)
Theorem binary_is_sample_of_partition (labels preds : list float64)
  (mx mn : float64) (kw : kwargs) :
  length labels = length preds -> forallb isfinite labels = true ->
  dprime (vec labels) (vec preds) "binary" mx mn kw
  = dprime (vec (spec_pos labels preds)) (vec (spec_neg labels preds))
           "sample" mx mn kw.
Proof.
  intros Hlen Hfin. unfold dprime, dprime_unclipped.
  now rewrite (resolve_binary labels preds kw Hlen Hfin).
Qed.

(** C9. In a valid binary-mode call every prediction goes to exactly one of
    the two sample sets, to the positive one when its label is strictly
    greater than zero and to the negative one otherwise: the two sets are
    the two halves of a split of the predictions, and their sizes add up
    to the common length. *)
Theorem binary_partition_invariant (labels preds : list float64)
  (kw : kwargs) :
  length labels = length preds -> forallb isfinite labels = true ->
  exists pos neg : ndarray,
    resolve (vec labels) (vec preds) "binary" kw = Ok (Samples pos neg)
    /\ data pos = map snd (filter (fun lp => ltb zero (fst lp))
                                  (combine labels preds))
    /\ data neg = map snd (filter (fun lp => negb (ltb zero (fst lp)))
                                  (combine labels preds))
    /\ Permutation (data pos ++ data neg) preds
    /\ size pos + size neg = length preds.
Proof.
  intros Hlen Hfin.
  exists (np_index (vec preds) (np_greater_zero (vec labels))),
         (np_index (vec preds) (np_invert (np_greater_zero (vec labels)))).
  assert (Hneg : select (np_invert (map (fun y => ltb zero y) labels)) preds
                 = map snd (filter (fun lp => negb (ltb zero (fst lp)))
                                   (combine labels preds))).
  { unfold np_invert. rewrite map_map.
    apply (select_filter (fun y => negb (ltb zero y))). }
  split; [|split; [|split; [|split]]].
  - rewrite (resolve_binary labels preds kw Hlen Hfin).
    unfold np_index, np_greater_zero. simpl.
    now rewrite select_filter, (select_invert labels preds Hfin).
  - unfold np_index, np_greater_zero. simpl. apply select_filter.
  - exact Hneg.
  - unfold np_index, np_greater_zero. simpl. rewrite select_filter, Hneg.
    rewrite <- map_app.
    pattern preds at 3. rewrite <- (combine_map_snd labels preds Hlen).
    apply Permutation_map, filter_split_perm.
  - unfold np_index, np_greater_zero. rewrite !size_vec. simpl.
    rewrite select_filter, Hneg, !length_map.
    rewrite (filter_split_length (fun lp => ltb zero (fst lp))).
    rewrite length_combine, Hlen. apply Nat.min_id.
Qed.

(** ** Errors *)

(** C4, as the code has it. For every mode tag outside binary, sample, rate
    and confusionmat, [dprime] raises [ValueError] with the message
    [Invalid mode], the same fixed text whatever the tag; the outcome
    depends on no other argument, so nothing is computed or checked before
    it. *)
Theorem invalid_mode_raises (mode : string) (A B : ndarray)
  (mx mn : float64) (kw : kwargs) :
  recognised mode = false ->
  dprime A B mode mx mn kw = Raise (ValueError "Invalid mode").
Proof.
  intros H. destruct (recognised_false mode H) as (H1 & H2 & H3 & H4).
  unfold dprime, dprime_unclipped, resolve. now rewrite H1, H2, H3, H4.
Qed.

Lemma resolve_samples_mode (A B : ndarray) (mode : string) (kw : kwargs)
  (pos neg : ndarray) :
  resolve A B mode kw = Ok (Samples pos neg) ->
  mode = "sample"%string \/ mode = "binary"%string.
Proof.
  unfold resolve.
  destruct (String.eqb_spec mode "sample"); [auto|].
  destruct (String.eqb_spec mode "binary"); [auto|].
  destruct (String.eqb mode "rate").
  - destruct (assert (shape_eqb A B)); discriminate.
  - destruct (String.eqb mode "confusionmat"); [|discriminate].
    destruct (confusion_matrix_stats A kw) as [[[[[[P N] TP] FN] FP] TN]|];
      discriminate.
Qed.

(** C6. In sample and binary modes, when the positive sample set has at
    most one element, or the negative one has, [dprime] raises [ValueError]
    with the message of the failing side (the positive side first), in
    place of any mean or variance. The sample sets are those the mode
    yields (the arguments in sample mode, the partition in binary mode),
    and they are finite, as sample sets are. *)
Theorem insufficient_samples (A B : ndarray) (mode : string)
  (pos neg : ndarray) (mx mn : float64) (kw : kwargs) :
  resolve A B mode kw = Ok (Samples pos neg) ->
  np_isfinite_all pos = true -> np_isfinite_all neg = true ->
  size pos <= 1 \/ size neg <= 1 ->
  (mode = "sample"%string \/ mode = "binary"%string)
  /\ dprime A B mode mx mn kw
     = Raise (ValueError (if Nat.leb (size pos) 1 then not_enough_positive
                          else not_enough_negative)).
Proof.
  intros Hr Hp Hn Hs. split; [exact (resolve_samples_mode _ _ _ _ _ _ Hr)|].
  unfold dprime, dprime_unclipped. rewrite Hr. simpl.
  unfold dprime_samples. rewrite Hp, Hn. simpl.
  destruct (Nat.leb_spec (size pos) 1); [reflexivity|].
  destruct (Nat.leb_spec (size neg) 1); [reflexivity|lia].
Qed.

(** ** Rate mode *)

Lemma shape_eqb_true (a b : ndarray) : shape a = shape b -> shape_eqb a b = true.
Proof.
  intros H. unfold shape_eqb.
  destruct (list_eq_dec Nat.eq_dec (shape a) (shape b)); [reflexivity|contradiction].
Qed.

Lemma dprime_rate_mode (TPR FPR : ndarray) (mx mn : float64) (kw : kwargs) :
  shape TPR = shape FPR ->
  dprime TPR FPR "rate" mx mn kw = Ok (np_clip (dprime_rates TPR FPR) mn mx).
Proof.
  intros H. unfold dprime, dprime_unclipped, resolve. simpl.
  now rewrite (shape_eqb_true TPR FPR H).
Qed.

(** C5, as the code has it. Rate mode does not reject a NaN or infinite
    rate: whenever the two arrays have one shape the call returns an array
    of that shape, and each element whose true-positive or false-positive
    rate is NaN or infinite is NaN, whatever the bounds. *)
Theorem rate_mode_propagates_nonfinite (TPR FPR : ndarray)
  (mx mn : float64) (kw : kwargs) :
  shape TPR = shape FPR ->
  exists v : ndarray,
    dprime TPR FPR "rate" mx mn kw = Ok v
    /\ shape v = shape TPR
    /\ forall (i : nat) (t f : float64),
         nth_error (data TPR) i = Some t -> nth_error (data FPR) i = Some f ->
         isfinite t = false \/ isfinite f = false ->
         nth_error (data v) i = Some nan.
Proof.
  intros Hs. eexists. split; [apply (dprime_rate_mode _ _ _ _ _ Hs)|].
  split; [reflexivity|]. intros i t f Ht Hf Hnf.
  unfold np_clip, dprime_rates, arr_map2, norm_ppf, arr_map. simpl.
  rewrite nth_error_map.
  rewrite (nth_error_zip_with sub _ _ i (norm_ppf1 t) (norm_ppf1 f)).
  - simpl. f_equal. apply clip1_of_nan.
    destruct Hnf as [H|H]; rewrite (norm_ppf1_nonfinite _ H).
    + reflexivity.
    + now rewrite sub_nan_r.
  - now rewrite nth_error_map, Ht.
  - now rewrite nth_error_map, Hf.
Qed.

(** C7. In rate mode the quantile of a true-positive rate of exactly 1 is
    [+inf] and that of a false-positive rate of exactly 0 is [-inf], so
    [dprime(1.0, 0.0, mode='rate')] returns [+inf] under the default bounds
    and [max_value] when a finite [max_value] is given. *)
Theorem rate_perfect_separation (mx : float64) (kw : kwargs) :
  isfinite mx = true ->
  norm_ppf1 one = inf /\ norm_ppf1 zero = ninf
  /\ dprime (scalar one) (scalar zero) "rate" inf ninf kw = Ok (scalar inf)
  /\ dprime (scalar one) (scalar zero) "rate" mx ninf kw = Ok (scalar mx).
Proof.
  intros Hm. split; [reflexivity|]. split; [reflexivity|].
  split; [reflexivity|].
  rewrite dprime_rate_mode by reflexivity. do 2 f_equal.
  destruct mx as [s|s| |s m e]; try destruct s; try discriminate; reflexivity.
Qed.

(** ** Clipping *)

Lemma dprime_clip (A B : ndarray) (mode : string) (mx mn : float64)
  (kw : kwargs) (v : ndarray) :
  dprime A B mode mx mn kw = Ok v ->
  exists dp, dprime_unclipped A B mode kw = Ok dp /\ v = np_clip dp mn mx.
Proof.
  unfold dprime. destruct (dprime_unclipped A B mode kw) as [dp|e]; simpl;
    [|discriminate].
  intros [= <-]. now exists dp.
Qed.


(** C10, as the code has it. With [min_value] strictly greater than
    [max_value] the clip adds no failure, and it turns every computed
    d-prime into [max_value], except a NaN, which stays NaN. *)
Theorem crossed_bounds (A B : ndarray) (mode : string)
  (mx mn : float64) (kw : kwargs) :
  ltb mx mn = true ->
  dprime A B mode mx mn kw
  = (dp <- dprime_unclipped A B mode kw ;;
     Ok (arr_map (fun x => if isnan x then nan else mx) dp)).
Proof.
  intros Hc. unfold dprime.
  destruct (dprime_unclipped A B mode kw) as [dp|e]; simpl; [|reflexivity].
  f_equal. unfold np_clip, arr_map. f_equal. apply map_ext. intros x.
  destruct (isnan x) eqn:Hx.
  - now apply clip1_of_nan.
  - now apply clip1_crossed.
Qed.

End Properties.

(** ** The properties on concrete calls *)

Section Examples.
Import F64.
Open Scope Z_scope.
Open Scope string_scope.

(** [dprime([2, 3], [0, 1], mode='sample')] is the formula on the two sets:
    means 2.5 and 0.5, variances 0.5 and 0.5. *)
Lemma dprime_sample_formula_witness :
  well_formed (vec (ints [2; 3])) /\ well_formed (vec (ints [0; 1]))
  /\ np_isfinite_all (vec (ints [2; 3])) = true
  /\ np_isfinite_all (vec (ints [0; 1])) = true
  /\ Nat.lt 1%nat (size (vec (ints [2; 3]))) /\ Nat.lt 1%nat (size (vec (ints [0; 1])))
  /\ run (vec (ints [2; 3])) (vec (ints [0; 1])) "sample" inf ninf
     = Ok (scalar (spec_dprime (ints [2; 3]) (ints [0; 1]))).
Proof.
  do 4 (split; [reflexivity|]). do 2 (split; [exact (le_n 2)|]).
  exact (@dprime_sample_formula example_env (vec (ints [2; 3]))
           (vec (ints [0; 1])) tt eq_refl eq_refl eq_refl eq_refl
           (le_n 2) (le_n 2)).
Defined.

Lemma dprime_sample_antisymmetric_witness :
  np_isfinite_all (vec (ints [2; 3])) = true
  /\ np_isfinite_all (vec (ints [0; 1])) = true
  /\ Nat.lt 1%nat (size (vec (ints [2; 3]))) /\ Nat.lt 1%nat (size (vec (ints [0; 1])))
  /\ exists d d' : float64,
       run (vec (ints [2; 3])) (vec (ints [0; 1])) "sample" inf ninf
       = Ok (scalar d)
       /\ run (vec (ints [0; 1])) (vec (ints [2; 3])) "sample" inf ninf
          = Ok (scalar d')
       /\ same_value d (opp d') = true.
Proof.
  do 2 (split; [reflexivity|]). do 2 (split; [exact (le_n 2)|]).
  exact (@dprime_sample_antisymmetric example_env (vec (ints [2; 3]))
           (vec (ints [0; 1])) tt eq_refl eq_refl (le_n 2) (le_n 2)).
Defined.

(** The example of the spec: labels [1, 1, 0, 0] with predictions
    [2, 3, 0, 1] in binary mode, against pos = [2, 3] and neg = [0, 1] in
    sample mode. *)
Lemma binary_is_sample_of_partition_witness :
  length (ints [1; 1; 0; 0]) = length (ints [2; 3; 0; 1])
  /\ forallb isfinite (ints [1; 1; 0; 0]) = true
  /\ run (vec (ints [1; 1; 0; 0])) (vec (ints [2; 3; 0; 1])) "binary" inf ninf
     = run (vec (ints [2; 3])) (vec (ints [0; 1])) "sample" inf ninf.
Proof.
  split; [reflexivity|]. split; [reflexivity|].
  exact (@binary_is_sample_of_partition example_env
           (ints [1; 1; 0; 0]) (ints [2; 3; 0; 1]) inf ninf tt
           eq_refl eq_refl).
Defined.

(** Labels [1, -1, 0, 2]: the second and third predictions go to the
    negative set. *)
Lemma binary_partition_invariant_witness :
  length (ints [1; -1; 0; 2]) = length (ints [5; 6; 7; 8])
  /\ forallb isfinite (ints [1; -1; 0; 2]) = true
  /\ exists pos neg : ndarray,
       @resolve example_env (vec (ints [1; -1; 0; 2]))
                (vec (ints [5; 6; 7; 8])) "binary" tt
       = Ok (Samples pos neg)
       /\ data pos = ints [5; 8]
       /\ data neg = ints [6; 7]
       /\ Permutation (data pos ++ data neg) (ints [5; 6; 7; 8])
       /\ Nat.add (size pos) (size neg) = 4%nat.
Proof.
  split; [reflexivity|]. split; [reflexivity|].
  exact (@binary_partition_invariant example_env
           (ints [1; -1; 0; 2]) (ints [5; 6; 7; 8]) tt eq_refl eq_refl).
Defined.

(** [dprime(A, B, mode='bogus')] *)
Lemma invalid_mode_raises_witness :
  recognised "bogus" = false
  /\ run (vec (ints [2; 3])) (vec (ints [0; 1])) "bogus" inf ninf
     = Raise (ValueError "Invalid mode").
Proof.
  split; [reflexivity|].
  exact (@invalid_mode_raises example_env "bogus" _ _ inf ninf tt eq_refl).
Defined.

(** For the tag [bogus] the message, a fixed text, does not contain it. *)
Lemma invalid_mode_message_omits_tag :
  exists msg : string,
    run (vec (ints [2; 3])) (vec (ints [0; 1])) "bogus" inf ninf
    = Raise (ValueError msg)
    /\ mentions "bogus" msg = false.
Proof. exists "Invalid mode". split; reflexivity. Qed.

(** The example of the spec: [dprime([5.0], [1.0, 2.0], mode='sample')]
    fails on the positive side. *)
Lemma insufficient_samples_witness :
  @resolve example_env (vec (ints [5])) (vec (ints [1; 2])) "sample" tt
  = Ok (Samples (vec (ints [5])) (vec (ints [1; 2])))
  /\ np_isfinite_all (vec (ints [5])) = true
  /\ np_isfinite_all (vec (ints [1; 2])) = true
  /\ (Nat.le (size (vec (ints [5]))) 1%nat \/ Nat.le (size (vec (ints [1; 2]))) 1%nat)
  /\ ("sample" = "sample" \/ "sample" = "binary")
  /\ run (vec (ints [5])) (vec (ints [1; 2])) "sample" inf ninf
     = Raise (ValueError not_enough_positive)
  /\ mentions "positive" not_enough_positive = true.
Proof.
  split; [reflexivity|]. split; [reflexivity|]. split; [reflexivity|].
  split; [left; exact (le_n 1)|].
  destruct (@insufficient_samples example_env (vec (ints [5]))
              (vec (ints [1; 2])) "sample" _ _ inf ninf tt
              eq_refl eq_refl eq_refl (or_introl (le_n 1))) as [Hm Hr].
  split; [exact Hm|]. split; [exact Hr | reflexivity].
Defined.

(** A NaN true-positive rate is not rejected; the result is NaN. *)
Lemma rate_mode_accepts_nan :
  has_nonfinite (scalar nan) = true
  /\ run (scalar nan) (scalar zero) "rate" inf ninf = Ok (scalar nan).
Proof. split; reflexivity. Qed.

Lemma rate_mode_propagates_nonfinite_witness :
  shape (vec [half; inf]) = shape (vec [nan; half])
  /\ exists v : ndarray,
       run (vec [half; inf]) (vec [nan; half]) "rate" inf ninf = Ok v
       /\ shape v = [2%nat]
       /\ forall (i : nat) (t f : float64),
            nth_error [half; inf] i = Some t ->
            nth_error [nan; half] i = Some f ->
            isfinite t = false \/ isfinite f = false ->
            nth_error (data v) i = Some nan.
Proof.
  split; [reflexivity|].
  exact (@rate_mode_propagates_nonfinite example_env
           (vec [half; inf]) (vec [nan; half]) inf ninf tt eq_refl).
Defined.

(** [dprime(1.0, 0.0, mode='rate')], unclipped and with [max_value=7]. *)
Lemma rate_perfect_separation_witness :
  isfinite (of_Z 7) = true
  /\ @norm_ppf1 example_env one = inf /\ @norm_ppf1 example_env zero = ninf
  /\ run (scalar one) (scalar zero) "rate" inf ninf = Ok (scalar inf)
  /\ run (scalar one) (scalar zero) "rate" (of_Z 7) ninf
     = Ok (scalar (of_Z 7)).
Proof.
  split; [reflexivity|].
  exact (@rate_perfect_separation example_env (of_Z 7) tt eq_refl).
Defined.



(** With [min_value=5] and [max_value=1], constant samples give NaN, not 1. *)
Lemma crossed_bounds_keep_nan :
  ltb (of_Z 1) (of_Z 5) = true
  /\ run (vec (ints [1; 1])) (vec (ints [1; 1])) "sample" (of_Z 1) (of_Z 5)
     = Ok (scalar nan)
  /\ same_value nan (of_Z 1) = false.
Proof. repeat split. Qed.

Lemma crossed_bounds_witness :
  ltb (of_Z 1) (of_Z 5) = true
  /\ run (vec (ints [2; 3])) (vec (ints [0; 1])) "sample" (of_Z 1) (of_Z 5)
     = Ok (scalar (of_Z 1)).
Proof.
  split; [reflexivity|].
  exact (@crossed_bounds example_env (vec (ints [2; 3])) (vec (ints [0; 1]))
           "sample" (of_Z 1) (of_Z 5) tt eq_refl).
Defined.

End Examples.

(** * Further properties of [dprime] *)

(** ** Helper facts *)

Section MoreFacts.
Import F64 F64Facts.

Lemma has_nonfinite_spec (a : ndarray) :
  has_nonfinite a = negb (np_isfinite_all a).
Proof.
  unfold has_nonfinite, np_isfinite_all.
  induction (data a) as [|x l IH]; simpl; [reflexivity|].
  rewrite IH. now destruct (isfinite x).
Qed.

Lemma clip1_nan_bound (lo hi x : float64) :
  isnan hi = true \/ isnan lo = true -> clip1 lo hi x = nan.
Proof.
  intros [H|H].
  - destruct hi; try discriminate. reflexivity.
  - destruct lo; try discriminate. unfold clip1, np_maximum.
    replace (leb S754_nan x) with false by (now destruct x).
    simpl. destruct (isnan x) eqn:Hx.
    + destruct x; try discriminate.
      unfold np_minimum. destruct hi as [s|s| |s m e]; try destruct s; reflexivity.
    + unfold np_minimum. destruct hi as [s|s| |s m e]; try destruct s; reflexivity.
Qed.

Lemma dprime_samples_scalar (pos neg v : ndarray) :
  dprime_samples pos neg = Ok v -> exists d : float64, v = scalar d.
Proof.
  unfold dprime_samples.
  destruct (np_isfinite_all pos); simpl; [|discriminate].
  destruct (np_isfinite_all neg); simpl; [|discriminate].
  destruct (Nat.leb (size pos) 1); [discriminate|].
  destruct (Nat.leb (size neg) 1); [discriminate|].
  intros [= <-]. eexists. reflexivity.
Qed.

Lemma dprime_samples_ok_inv (pos neg v : ndarray) :
  dprime_samples pos neg = Ok v ->
  np_isfinite_all pos = true /\ np_isfinite_all neg = true
  /\ 1 < size pos /\ 1 < size neg.
Proof.
  unfold dprime_samples.
  destruct (np_isfinite_all pos); simpl; [|discriminate].
  destruct (np_isfinite_all neg); simpl; [|discriminate].
  destruct (Nat.leb_spec (size pos) 1); [discriminate|].
  destruct (Nat.leb_spec (size neg) 1); [discriminate|].
  auto.
Qed.

End MoreFacts.

Section MoreProperties.

Context {E : Externals}.
Import F64 F64Facts.

(** ** Sample mode *)

(** X1. In sample mode a NaN or infinite value on either side raises
    [AssertionError], whatever the sizes of the two sides and the bounds:
    the finiteness assertions come before the size tests. *)
Theorem sample_nonfinite_rejected (pos neg : ndarray) (mx mn : float64)
  (kw : kwargs) :
  has_nonfinite pos = true \/ has_nonfinite neg = true ->
  dprime pos neg "sample" mx mn kw = Raise AssertionError.
Proof.
  rewrite !has_nonfinite_spec, !negb_true_iff. intros H.
  rewrite dprime_sample_mode. unfold dprime_samples.
  destruct (np_isfinite_all pos); simpl; [|reflexivity].
  destruct H as [H|H]; [discriminate|]. now rewrite H.
Qed.

(** X2. Sample mode returns a value exactly when both sides are finite and
    each has more than one element; the bounds play no part in it. *)
Theorem sample_mode_returns_iff (pos neg : ndarray) (mx mn : float64)
  (kw : kwargs) :
  (exists v : ndarray, dprime pos neg "sample" mx mn kw = Ok v)
  <-> np_isfinite_all pos = true /\ np_isfinite_all neg = true
      /\ 1 < size pos /\ 1 < size neg.
Proof.
  rewrite dprime_sample_mode. split.
  - intros [v Hv]. destruct (dprime_samples pos neg) as [dp|e] eqn:Hd;
      [|discriminate]. exact (dprime_samples_ok_inv _ _ _ Hd).
  - intros (Hp & Hn & Sp & Sn).
    rewrite (dprime_samples_ok pos neg Hp Hn Sp Sn). simpl. eauto.
Qed.

(** X3. Whatever sample or binary mode returns is a single number (an
    array of shape [()]), never an array of several values. *)
Theorem sample_family_returns_scalar (A B : ndarray) (mode : string)
  (mx mn : float64) (kw : kwargs) (v : ndarray) :
  mode = "sample"%string \/ mode = "binary"%string ->
  dprime A B mode mx mn kw = Ok v ->
  exists d : float64, v = scalar d.
Proof.
  intros Hm Hv. destruct (dprime_clip _ _ _ _ _ _ _ Hv) as (dp & Hu & ->).
  assert (Hs : exists pos neg, dprime_samples pos neg = Ok dp).
  { unfold dprime_unclipped in Hu.
    destruct (resolve A B mode kw) as [[pos neg|TPR FPR]|e] eqn:Hr;
      simpl in Hu; [eauto| |discriminate].
    exfalso. unfold resolve in Hr. destruct Hm as [-> | ->]; simpl in Hr.
    - discriminate.
    - destruct (len A); simpl in Hr; [|discriminate].
      destruct (len B); simpl in Hr; [|discriminate].
      destruct (assert _); simpl in Hr; [|discriminate].
      destruct (assert _); simpl in Hr; [|discriminate].
      destruct (assert _); simpl in Hr; [|discriminate].
      destruct (assert _); simpl in Hr; discriminate. }
  destruct Hs as (pos & neg & Hs).
  destruct (dprime_samples_scalar _ _ _ Hs) as [d ->].
  eexists. reflexivity.
Qed.

(** ** The bounds *)

(** X4. Clipping is purely a last step: a call with bounds is the call with
    the default bounds followed by the clip, so the bounds never decide
    whether [dprime] raises, nor which error. *)
Theorem clipping_is_post_hoc (A B : ndarray) (mode : string)
  (mx mn : float64) (kw : kwargs) :
  dprime A B mode mx mn kw
  = (v <- dprime A B mode inf ninf kw ;; Ok (np_clip v mn mx)).
Proof.
  unfold dprime. destruct (dprime_unclipped A B mode kw) as [dp|e]; simpl;
    [now rewrite np_clip_default | reflexivity].
Qed.

(** X5. A NaN passed as [max_value] or as [min_value] makes every returned
    element NaN. *)
Theorem nan_bound_gives_nan (A B : ndarray) (mode : string)
  (mx mn : float64) (kw : kwargs) (v : ndarray) :
  isnan mx = true \/ isnan mn = true ->
  dprime A B mode mx mn kw = Ok v ->
  all_elements isnan v = true.
Proof.
  intros Hb Hv. destruct (dprime_clip _ _ _ _ _ _ _ Hv) as (dp & _ & ->).
  unfold all_elements, np_clip, arr_map. simpl.
  rewrite forallb_forall. intros y Hy. apply in_map_iff in Hy.
  destruct Hy as (x & <- & _). now rewrite (clip1_nan_bound mn mx x Hb).
Qed.

(** ** Binary mode *)

Lemma binary_as_samples (labels preds : list float64) (mx mn : float64)
  (kw : kwargs) :
  length labels = length preds -> forallb isfinite labels = true ->
  dprime (vec labels) (vec preds) "binary" mx mn kw
  = (dp <- dprime_samples (vec (spec_pos labels preds))
                          (vec (spec_neg labels preds)) ;;
     Ok (np_clip dp mn mx)).
Proof.
  intros Hlen Hfin. unfold dprime, dprime_unclipped.
  now rewrite (resolve_binary labels preds kw Hlen Hfin).
Qed.

Lemma binary_checks_fail (labels preds : list float64) (mx mn : float64)
  (kw : kwargs) :
  length labels <> length preds \/ forallb isfinite labels = false ->
  dprime (vec labels) (vec preds) "binary" mx mn kw = Raise AssertionError.
Proof.
  intros H. unfold dprime, dprime_unclipped, resolve. simpl.
  destruct (Nat.eqb_spec (length labels) (length preds)) as [Hl|Hl]; simpl;
    [|reflexivity].
  destruct H as [H|H]; [contradiction|].
  unfold np_isfinite_all. simpl. now rewrite H.
Qed.

Lemma forallb_partition (p : float64 -> bool) (labels preds : list float64) :
  length labels = length preds -> forallb isfinite labels = true ->
  forallb p (spec_pos labels preds) && forallb p (spec_neg labels preds)
  = forallb p preds.
Proof.
  unfold spec_pos, spec_neg. revert preds.
  induction labels as [|a labels IH]; intros [|b preds]; simpl;
    try discriminate; try reflexivity.
  intros [= Hlen] Hfin. apply andb_prop in Hfin. destruct Hfin as [Ha Hfin].
  rewrite <- (IH preds Hlen Hfin), <- (not_gt_zero a Ha).
  destruct (ltb zero a); simpl.
  - now rewrite andb_assoc.
  - rewrite !andb_assoc. f_equal. apply andb_comm.
Qed.

(** X6. On one-dimensional inputs binary mode returns a value exactly when
    the two arrays have one length, labels and predictions are all finite,
    and more than one prediction falls on each side of the partition. *)
Theorem binary_mode_returns_iff (labels preds : list float64)
  (mx mn : float64) (kw : kwargs) :
  (exists v : ndarray,
     dprime (vec labels) (vec preds) "binary" mx mn kw = Ok v)
  <-> length labels = length preds
      /\ forallb isfinite labels = true /\ forallb isfinite preds = true
      /\ 1 < length (spec_pos labels preds)
      /\ 1 < length (spec_neg labels preds).
Proof.
  split.
  - intros [v Hv].
    destruct (Nat.eq_dec (length labels) (length preds)) as [Hlen|Hlen];
      [|rewrite binary_checks_fail in Hv by auto; discriminate].
    destruct (forallb isfinite labels) eqn:Hfin;
      [|rewrite binary_checks_fail in Hv by auto; discriminate].
    rewrite (binary_as_samples _ _ _ _ _ Hlen Hfin) in Hv.
    destruct (dprime_samples _ _) as [dp|e] eqn:Hd; [|discriminate].
    apply dprime_samples_ok_inv in Hd. rewrite !size_vec in Hd.
    destruct Hd as (Hp & Hn & Sp & Sn). unfold np_isfinite_all in Hp, Hn.
    simpl in Hp, Hn. repeat split; auto.
    now rewrite <- (forallb_partition isfinite labels preds Hlen Hfin), Hp, Hn.
  - intros (Hlen & Hfin & Hpr & Sp & Sn).
    rewrite (binary_as_samples _ _ _ _ _ Hlen Hfin).
    rewrite <- (forallb_partition isfinite labels preds Hlen Hfin) in Hpr.
    apply andb_prop in Hpr. destruct Hpr as [Hp Hn].
    rewrite dprime_samples_ok; [simpl; eauto | exact Hp | exact Hn | |];
      now rewrite size_vec.
Qed.

(** X7. Binary mode raises [AssertionError] on inputs that have a length
    when the two lengths differ, or a label is NaN or infinite, or one of
    the two arrays is not one-dimensional. *)
Theorem binary_input_checks (A B : ndarray) (n m : nat) (mx mn : float64)
  (kw : kwargs) :
  len A = Ok n -> len B = Ok m ->
  n <> m \/ np_isfinite_all A = false \/ ndim A <> 1 \/ ndim B <> 1 ->
  dprime A B "binary" mx mn kw = Raise AssertionError.
Proof.
  intros HA HB H. unfold dprime, dprime_unclipped, resolve. simpl.
  rewrite HA, HB. simpl.
  destruct (Nat.eqb_spec n m) as [Hnm|Hnm]; simpl; [|reflexivity].
  destruct (np_isfinite_all A); simpl; [|reflexivity].
  destruct (Nat.eqb_spec (ndim A) 1) as [H1|H1]; simpl; [|reflexivity].
  destruct (Nat.eqb_spec (ndim B) 1) as [H2|H2]; simpl; [|reflexivity].
  destruct H as [H|[H|[H|H]]]; (contradiction || discriminate).
Qed.

(** X8. Binary mode raises [TypeError] when the labels or the predictions
    are a scalar, which has no length. *)
Theorem binary_scalar_type_error (A B : ndarray) (mx mn : float64)
  (kw : kwargs) :
  shape A = [] \/ shape B = [] ->
  dprime A B "binary" mx mn kw = Raise TypeError.
Proof.
  intros H. unfold dprime, dprime_unclipped, resolve, len. simpl.
  destruct (shape A) as [|n sa]; simpl; [reflexivity|].
  destruct H as [H|H]; [discriminate|]. now rewrite H.
Qed.

(** X9. Binary mode reads the labels only through their sign: two finite
    label arrays that are strictly positive at the same positions give the
    same outcome on the same predictions. *)
Theorem binary_depends_on_label_sign (labels labels' preds : list float64)
  (mx mn : float64) (kw : kwargs) :
  forallb isfinite labels = true -> forallb isfinite labels' = true ->
  positive_mask labels = positive_mask labels' ->
  dprime (vec labels) (vec preds) "binary" mx mn kw
  = dprime (vec labels') (vec preds) "binary" mx mn kw.
Proof.
  intros Hf Hf' Hm.
  assert (Hlen : length labels = length labels').
  { apply (f_equal (@length bool)) in Hm. unfold positive_mask in Hm.
    now rewrite !length_map in Hm. }
  unfold dprime, dprime_unclipped, resolve, np_isfinite_all, np_index,
    np_greater_zero. simpl. rewrite Hf, Hf', <- Hlen.
  unfold positive_mask in Hm. now rewrite Hm.
Qed.

Lemma partition_all_positive (labels preds : list float64) :
  length labels = length preds ->
  forallb (fun y => ltb zero y) labels = true ->
  spec_pos labels preds = preds /\ spec_neg labels preds = [].
Proof.
  unfold spec_pos, spec_neg. revert preds.
  induction labels as [|a labels IH]; intros [|b preds]; simpl;
    try discriminate; auto.
  intros [= Hlen] H. apply andb_prop in H. destruct H as [Ha H].
  destruct (IH preds Hlen H) as [IHp IHn]. rewrite Ha. simpl.
  rewrite IHp. split; [reflexivity|].
  replace (leb a zero) with false; [exact IHn|].
  destruct a as [s|s| |s m e]; try destruct s; try discriminate; reflexivity.
Qed.

Lemma partition_no_positive (labels preds : list float64) :
  length labels = length preds -> forallb isfinite labels = true ->
  forallb (fun y => negb (ltb zero y)) labels = true ->
  spec_pos labels preds = [] /\ spec_neg labels preds = preds.
Proof.
  unfold spec_pos, spec_neg. revert preds.
  induction labels as [|a labels IH]; intros [|b preds]; simpl;
    try discriminate; auto.
  intros [= Hlen] Hf H. apply andb_prop in Hf, H.
  destruct Hf as [Hfa Hf]. destruct H as [Ha H].
  destruct (IH preds Hlen Hf H) as [IHp IHn].
  rewrite <- (not_gt_zero a Hfa), Ha. apply negb_true_iff in Ha. rewrite Ha.
  simpl. now rewrite IHn.
Qed.

(** X10. When every label is strictly positive, binary mode on finite
    predictions raises [ValueError] for want of negative samples (for want
    of positive ones if there is at most one prediction at all). *)
Theorem binary_all_labels_positive (labels preds : list float64)
  (mx mn : float64) (kw : kwargs) :
  length labels = length preds ->
  forallb isfinite labels = true -> forallb isfinite preds = true ->
  forallb (fun y => ltb zero y) labels = true ->
  dprime (vec labels) (vec preds) "binary" mx mn kw
  = Raise (ValueError (if Nat.leb (length preds) 1 then not_enough_positive
                       else not_enough_negative)).
Proof.
  intros Hlen Hf Hp Hall. rewrite (binary_as_samples _ _ _ _ _ Hlen Hf).
  destruct (partition_all_positive labels preds Hlen Hall) as [-> ->].
  unfold dprime_samples, np_isfinite_all. simpl. rewrite Hp. simpl.
  rewrite size_vec. now destruct (Nat.leb (length preds) 1).
Qed.

(** X11. When no label is strictly positive, binary mode on finite
    predictions raises [ValueError] for want of positive samples. *)
Theorem binary_no_label_positive (labels preds : list float64)
  (mx mn : float64) (kw : kwargs) :
  length labels = length preds ->
  forallb isfinite labels = true -> forallb isfinite preds = true ->
  forallb (fun y => negb (ltb zero y)) labels = true ->
  dprime (vec labels) (vec preds) "binary" mx mn kw
  = Raise (ValueError not_enough_positive).
Proof.
  intros Hlen Hf Hp Hall. rewrite (binary_as_samples _ _ _ _ _ Hlen Hf).
  destruct (partition_no_positive labels preds Hlen Hf Hall) as [-> ->].
  unfold dprime_samples, np_isfinite_all. simpl. now rewrite Hp.
Qed.

Lemma partition_flip (labels preds : list float64) :
  forallb (fun y => isfinite y && negb (eqb y zero)) labels = true ->
  spec_pos (map opp labels) preds = spec_neg labels preds
  /\ spec_neg (map opp labels) preds = spec_pos labels preds.
Proof.
  unfold spec_pos, spec_neg. revert preds.
  induction labels as [|a labels IH]; intros [|b preds]; simpl; auto.
  intros H. apply andb_prop in H. destruct H as [Ha H].
  destruct (IH preds H) as [IHp IHn].
  assert (H1 : ltb zero (opp a) = leb a zero)
    by (destruct a as [s|s| |s m e]; try destruct s; try discriminate;
        reflexivity).
  assert (H2 : leb (opp a) zero = ltb zero a)
    by (destruct a as [s|s| |s m e]; try destruct s; try discriminate;
        reflexivity).
  rewrite H1, H2. destruct (leb a zero), (ltb zero a); simpl;
    now rewrite ?IHp, ?IHn.
Qed.

Lemma forallb_finite_opp (labels : list float64) :
  forallb (fun y => isfinite y && negb (eqb y zero)) labels = true ->
  forallb isfinite labels = true /\ forallb isfinite (map opp labels) = true.
Proof.
  induction labels as [|a labels IH]; simpl; auto.
  intros H. apply andb_prop in H. destruct H as [Ha H].
  destruct (IH H) as [-> ->]. apply andb_prop in Ha. destruct Ha as [Ha _].
  rewrite Ha. split; [reflexivity|]. now destruct a.
Qed.

(** X12. Flipping the sign of finite, nonzero labels negates the d-prime of
    binary mode: if the call returns [d] under the default bounds, the call
    on the negated labels returns a [d'] with [d = -d'] as values (or both
    NaN). *)
Theorem binary_label_flip (labels preds : list float64) (kw : kwargs)
  (d : float64) :
  forallb (fun y => isfinite y && negb (eqb y zero)) labels = true ->
  dprime (vec labels) (vec preds) "binary" inf ninf kw = Ok (scalar d) ->
  exists d' : float64,
    dprime (vec (map opp labels)) (vec preds) "binary" inf ninf kw
    = Ok (scalar d')
    /\ same_value d (opp d') = true.
Proof.
  intros Hnz Hd. destruct (forallb_finite_opp labels Hnz) as [Hf Hf'].
  destruct (Nat.eq_dec (length labels) (length preds)) as [Hlen|Hlen];
    [|rewrite binary_checks_fail in Hd by auto; discriminate].
  assert (Hlen' : length (map opp labels) = length preds)
    by now rewrite length_map.
  rewrite (binary_as_samples _ _ _ _ _ Hlen Hf) in Hd.
  rewrite (binary_as_samples _ _ _ _ _ Hlen' Hf').
  destruct (partition_flip labels preds Hnz) as [-> ->].
  destruct (dprime_samples (vec (spec_pos labels preds)) _) as [dp|e] eqn:Hs;
    [|discriminate].
  destruct (dprime_samples_ok_inv _ _ _ Hs) as (Hp & Hn & Sp & Sn).
  rewrite (dprime_samples_ok _ _ Hp Hn Sp Sn) in Hs.
  rewrite (dprime_samples_ok _ _ Hn Hp Sn Sp).
  injection Hs as <-. simpl in Hd. rewrite np_clip_default in Hd.
  injection Hd as <-. simpl bind. rewrite np_clip_default.
  eexists. split; [reflexivity|]. apply dprime_formula_swap.
Qed.

(** ** Rate mode *)

(** X13. Rate mode raises [AssertionError] when the two rate arrays differ
    in shape, whatever their values and the bounds. *)
Theorem rate_shape_mismatch (TPR FPR : ndarray) (mx mn : float64)
  (kw : kwargs) :
  shape TPR <> shape FPR ->
  dprime TPR FPR "rate" mx mn kw = Raise AssertionError.
Proof.
  intros H. unfold dprime, dprime_unclipped, resolve, shape_eqb. simpl.
  destruct (list_eq_dec Nat.eq_dec (shape TPR) (shape FPR));
    [contradiction | reflexivity].
Qed.

Lemma length_zip_with (f : float64 -> float64 -> float64)
  (l1 l2 : list float64) :
  length l1 = length l2 -> length (zip_with f l1 l2) = length l1.
Proof.
  revert l2. induction l1 as [|a l1 IH]; intros [|b l2]; simpl;
    try discriminate; auto.
Qed.

Lemma same_value_sub_swap (x y : float64) :
  same_value (sub x y) (opp (sub y x)) = true.
Proof.
  destruct (sub_swap x y) as [H | [-> ->]].
  - rewrite H, opp_involutive. apply same_value_refl.
  - reflexivity.
Qed.

Lemma clip_default_data (l : list float64) : map (clip1 ninf inf) l = l.
Proof.
  induction l as [|x l IH]; simpl; [reflexivity|].
  now rewrite clip1_default, IH.
Qed.

Lemma zip_with_sub_swap (l1 l2 : list float64) :
  Forall2 (fun d d' => same_value d (opp d') = true)
          (zip_with sub l1 l2) (zip_with sub l2 l1).
Proof.
  revert l2. induction l1 as [|a l1 IH]; intros [|b l2]; simpl;
    try constructor; [apply same_value_sub_swap | apply IH].
Qed.

(** X14. Rate mode is antisymmetric: for rate arrays of one shape and the
    default bounds, exchanging the true-positive and false-positive rates
    negates every element of the result, as values (or both NaN). *)
Theorem rate_mode_antisymmetric (TPR FPR : ndarray) (kw : kwargs) :
  shape TPR = shape FPR ->
  exists v v' : ndarray,
    dprime TPR FPR "rate" inf ninf kw = Ok v
    /\ dprime FPR TPR "rate" inf ninf kw = Ok v'
    /\ shape v = shape v'
    /\ Forall2 (fun d d' => same_value d (opp d') = true) (data v) (data v').
Proof.
  intros Hs. do 2 eexists.
  split; [apply (dprime_rate_mode _ _ _ _ _ Hs)|].
  split; [apply (dprime_rate_mode _ _ _ _ _ (eq_sym Hs))|].
  split; [exact Hs|].
  unfold np_clip, dprime_rates, arr_map2, arr_map. simpl.
  rewrite !clip_default_data. apply zip_with_sub_swap.
Qed.

Lemma sub_diag (x : float64) :
  sub x x = if isfinite x then zero else nan.
Proof.
  destruct x as [s|s| |s m e]; try destruct s; try reflexivity;
    unfold sub, SFsub; rewrite Z.sub_diag; reflexivity.
Qed.

Lemma nth_error_zip_with_diag (f : float64 -> float64 -> float64)
  (l : list float64) (i : nat) (x : float64) :
  nth_error l i = Some x -> nth_error (zip_with f l l) i = Some (f x x).
Proof. intros H. now apply nth_error_zip_with. Qed.

(** X15. Equal rates carry no discriminability: when the same array is
    given as true-positive and as false-positive rates, each returned
    element is the clip of [0] where the quantile of the rate is finite,
    and NaN where it is not, as at the rates 0 and 1. *)
Theorem rate_mode_equal_rates (R : ndarray) (mx mn : float64) (kw : kwargs) :
  exists v : ndarray,
    dprime R R "rate" mx mn kw = Ok v
    /\ forall (i : nat) (q : float64),
         nth_error (data R) i = Some q ->
         nth_error (data v) i
         = Some (if isfinite (norm_ppf1 q) then clip1 mn mx zero else nan)
         /\ (eqb q zero = true \/ eqb q one = true ->
             nth_error (data v) i = Some nan).
Proof.
  eexists. split; [apply dprime_rate_mode; reflexivity|].
  intros i q Hq.
  assert (Hi : nth_error (data (np_clip (dprime_rates R R) mn mx)) i
               = Some (if isfinite (norm_ppf1 q) then clip1 mn mx zero
                       else nan)).
  { unfold np_clip, dprime_rates, arr_map2, norm_ppf, arr_map. simpl.
    rewrite nth_error_map.
    rewrite (nth_error_zip_with_diag sub _ i (norm_ppf1 q))
      by now rewrite nth_error_map, Hq.
    simpl. rewrite sub_diag. destruct (isfinite (norm_ppf1 q));
      [reflexivity | now rewrite clip1_of_nan]. }
  split; [exact Hi|]. intros H01. rewrite Hi.
  replace (isfinite (norm_ppf1 q)) with false; [reflexivity|].
  unfold norm_ppf1.
  destruct H01 as [H|H].
  - replace (ltb zero q) with false
      by (destruct q as [s|s| |s m e]; try destruct s; try discriminate;
          reflexivity).
    simpl. now rewrite H.
  - replace (ltb q one) with false.
    + rewrite andb_false_r.
      replace (eqb q zero) with false
        by (destruct q as [s|s| |s m e]; try destruct s; try discriminate;
            reflexivity).
      now rewrite H.
    + unfold eqb, SFeqb in H. unfold ltb, SFltb.
      now destruct (SFcompare q one) as [[ | | ]|].
Qed.

(** ** Confusion-matrix mode *)

(** X16. Confusion-matrix mode is rate mode on the rates [TP / P] and
    [FP / N] of the statistics returned for the matrix, when these come
    with one shape; the argument [B] plays no part. *)
Theorem confusionmat_is_rate_mode (M B : ndarray) (mx mn : float64)
  (kw : kwargs) (P N TP FN FP TN : ndarray) :
  confusion_matrix_stats M kw = Ok (P, N, TP, FN, FP, TN) ->
  shape TP = shape FP ->
  dprime M B "confusionmat" mx mn kw
  = dprime (arr_map2 div TP P) (arr_map2 div FP N) "rate" mx mn kw.
Proof.
  intros Hs Hsh. rewrite dprime_rate_mode by exact Hsh.
  unfold dprime, dprime_unclipped, resolve. simpl. now rewrite Hs.
Qed.

Lemma div_zero_zero (x y : float64) :
  eqb x zero = true -> eqb y zero = true -> div x y = nan.
Proof.
  destruct x as [s|s| |s m e], y as [s'|s'| |s' m' e'];
    try destruct s; try destruct s'; try discriminate; reflexivity.
Qed.

(** X17. In confusion-matrix mode a grouping without positives (both its
    [TP] and its [P] zero) gets a NaN d-prime, whatever its false-positive
    rate and the bounds. *)
Theorem confusionmat_no_positives (M B : ndarray) (mx mn : float64)
  (kw : kwargs) (P N TP FN FP TN : ndarray) (i : nat)
  (tp p fp n : float64) :
  confusion_matrix_stats M kw = Ok (P, N, TP, FN, FP, TN) ->
  nth_error (data TP) i = Some tp -> nth_error (data P) i = Some p ->
  nth_error (data FP) i = Some fp -> nth_error (data N) i = Some n ->
  eqb tp zero = true -> eqb p zero = true ->
  exists v : ndarray,
    dprime M B "confusionmat" mx mn kw = Ok v
    /\ nth_error (data v) i = Some nan.
Proof.
  intros Hs Htp Hp Hfp Hn Ztp Zp.
  unfold dprime, dprime_unclipped, resolve. simpl. rewrite Hs. simpl.
  eexists. split; [reflexivity|].
  unfold np_clip, dprime_rates, arr_map2, norm_ppf, arr_map. simpl.
  rewrite nth_error_map.
  rewrite (nth_error_zip_with sub _ _ i (norm_ppf1 (div tp p))
             (norm_ppf1 (div fp n))).
  - simpl. rewrite (div_zero_zero tp p Ztp Zp). now rewrite clip1_of_nan.
  - rewrite nth_error_map.
    now rewrite (nth_error_zip_with div _ _ i tp p Htp Hp).
  - rewrite nth_error_map.
    now rewrite (nth_error_zip_with div _ _ i fp n Hfp Hn).
Qed.

(** ** The sign of the sample d-prime *)

Lemma binary_round_aux_sign (s : bool) (m e : Z) (l : location) :
  binary_round_aux prec emax s m e l = nan
  \/ signbit (binary_round_aux prec emax s m e l) = s.
Proof.
  unfold binary_round_aux.
  destruct (shr_fexp prec emax m e l) as [mrs' e'].
  destruct (shr_fexp prec emax _ e' loc_Exact) as [mrs'' e''].
  destruct (shr_m mrs''); auto.
  destruct (Z.leb e'' (emax - prec)); auto.
Qed.

Lemma binary_round_aux_nonneg (m e : Z) (l : location) :
  signbit (binary_round_aux prec emax false m e l) = false.
Proof. destruct (binary_round_aux_sign false m e l) as [-> | ->]; reflexivity. Qed.

Lemma binary_round_nonneg (m : positive) (e : Z) :
  signbit (binary_round prec emax false m e) = false.
Proof.
  unfold binary_round. destruct (shl_align m e _) as [mz ez].
  apply binary_round_aux_nonneg.
Qed.

Lemma of_Z_nonneg (z : Z) : (0 <= z)%Z -> signbit (of_Z z) = false.
Proof.
  destruct z as [|p|p]; intros H; [reflexivity| |lia].
  apply binary_round_nonneg.
Qed.

Lemma mul_self_nonneg (x : float64) : signbit (mul x x) = false.
Proof.
  destruct x as [s|s| |s m e]; try destruct s; try reflexivity;
    apply binary_round_aux_nonneg.
Qed.

Lemma add_nonneg (x y : float64) :
  signbit x = false -> signbit y = false -> signbit (add x y) = false.
Proof.
  destruct x as [sx|sx| |sx mx ex], y as [sy|sy| |sy my ey]; simpl;
    intros Hx Hy; subst; try reflexivity.
  unfold add, SFadd. simpl cond_Zopp.
  apply binary_round_nonneg.
Qed.

Lemma np_sum_nonneg (l : list float64) :
  Forall (fun x => signbit x = false) l -> signbit (np_sum l) = false.
Proof.
  unfold np_sum. assert (H0 : signbit zero = false) by reflexivity.
  revert H0. generalize zero as acc. induction l as [|x l IH]; simpl; auto.
  intros acc Hacc Hl. inversion Hl; subst. apply IH; auto using add_nonneg.
Qed.

Lemma div_nonneg (x y : float64) :
  signbit x = false -> signbit y = false -> signbit (div x y) = false.
Proof.
  destruct x as [sx|sx| |sx mx ex], y as [sy|sy| |sy my ey]; simpl;
    intros Hx Hy; subst; try reflexivity.
  unfold div, SFdiv.
  destruct (SFdiv_core_binary _ _ _ _ _ _) as [[mz ez] lz].
  apply binary_round_aux_nonneg.
Qed.

Lemma sqrt_nonneg (x : float64) : signbit x = false -> signbit (sqrt x) = false.
Proof.
  destruct x as [s|s| |s m e]; simpl; intros Hx; subst; try reflexivity.
  unfold sqrt, SFsqrt.
  destruct (SFsqrt_core_binary _ _ _ _) as [[mz ez] lz].
  apply binary_round_aux_nonneg.
Qed.

Lemma np_var_nonneg (a : ndarray) (ddof : nat) : signbit (np_var a ddof) = false.
Proof.
  unfold np_var. apply div_nonneg.
  - apply np_sum_nonneg. rewrite map_map. apply Forall_forall.
    intros y Hy. apply in_map_iff in Hy. destruct Hy as (v & <- & _).
    apply mul_self_nonneg.
  - apply of_Z_nonneg. lia.
Qed.

Lemma div_sign (x y : float64) :
  signbit y = false -> isnan (div x y) = true \/ signbit (div x y) = signbit x.
Proof.
  destruct x as [sx|sx| |sx mx ex], y as [sy|sy| |sy my ey]; simpl;
    intros Hy; subst; try rewrite xorb_false_r; auto.
  unfold div, SFdiv.
  destruct (SFdiv_core_binary _ _ _ _ _ _) as [[mz ez] lz].
  rewrite ?xorb_false_r.
  destruct (binary_round_aux_sign sx mz ez lz) as [-> | ->]; auto.
Qed.

(** X18. The d-prime of sample mode carries the sign of the difference of
    the means: under the default bounds the returned value is NaN, or its
    sign bit is that of [mean(pos) - mean(neg)]. *)
Theorem sample_dprime_sign (pos neg : ndarray) (kw : kwargs) (d : float64) :
  dprime pos neg "sample" inf ninf kw = Ok (scalar d) ->
  isnan d = true
  \/ signbit d = signbit (sub (np_mean pos) (np_mean neg)).
Proof.
  rewrite dprime_sample_mode.
  destruct (dprime_samples pos neg) as [dp|e] eqn:Hs; [|discriminate].
  destruct (dprime_samples_ok_inv _ _ _ Hs) as (Hp & Hn & Sp & Sn).
  rewrite (dprime_samples_ok _ _ Hp Hn Sp Sn) in Hs. injection Hs as <-.
  simpl bind. rewrite np_clip_default. intros [= <-].
  unfold dprime_formula. apply div_sign, sqrt_nonneg, div_nonneg;
    [|reflexivity].
  apply add_nonneg; apply np_var_nonneg.
Qed.

End MoreProperties.

(** ** The further properties on concrete calls *)

Section MoreExamples.
Import F64.
Open Scope Z_scope.
Open Scope string_scope.

(** A single NaN on the positive side: the assertion fails before the size
    test is reached. *)
Lemma sample_nonfinite_rejected_witness :
  (has_nonfinite (vec [nan]) = true
   \/ has_nonfinite (vec (ints [1; 2])) = true)
  /\ run (vec [nan]) (vec (ints [1; 2])) "sample" inf ninf
     = Raise AssertionError.
Proof.
  split; [left; reflexivity|].
  exact (@sample_nonfinite_rejected example_env (vec [nan])
           (vec (ints [1; 2])) inf ninf tt (or_introl eq_refl)).
Defined.

Lemma sample_mode_returns_iff_witness :
  exists v : ndarray,
    run (vec (ints [2; 3])) (vec (ints [0; 1])) "sample" (of_Z 1) (of_Z 0)
    = Ok v.
Proof.
  exact (proj2 (@sample_mode_returns_iff example_env (vec (ints [2; 3]))
                  (vec (ints [0; 1])) (of_Z 1) (of_Z 0) tt)
               (conj eq_refl (conj eq_refl (conj (le_n 2) (le_n 2))))).
Defined.

Lemma sample_family_returns_scalar_witness :
  ("binary" = "sample" \/ "binary" = "binary")
  /\ run (vec (ints [1; 1; 0; 0])) (vec (ints [2; 3; 0; 1])) "binary"
         (of_Z 1) ninf
     = Ok (scalar (of_Z 1))
  /\ exists d : float64, scalar (of_Z 1) = scalar d.
Proof.
  split; [right; reflexivity|]. split; [reflexivity|].
  exact (@sample_family_returns_scalar example_env
           (vec (ints [1; 1; 0; 0])) (vec (ints [2; 3; 0; 1])) "binary"
           (of_Z 1) ninf tt (scalar (of_Z 1)) (or_intror eq_refl) eq_refl).
Defined.

Lemma nan_bound_gives_nan_witness :
  (isnan nan = true \/ isnan ninf = true)
  /\ run (vec (ints [2; 3])) (vec (ints [0; 1])) "sample" nan ninf
     = Ok (scalar nan)
  /\ all_elements isnan (scalar nan) = true.
Proof.
  split; [left; reflexivity|]. split; [reflexivity|].
  exact (@nan_bound_gives_nan example_env (vec (ints [2; 3]))
           (vec (ints [0; 1])) "sample" nan ninf tt (scalar nan)
           (or_introl eq_refl) eq_refl).
Defined.

Lemma binary_mode_returns_iff_witness :
  exists v : ndarray,
    run (vec (ints [1; 1; 0; 0])) (vec (ints [2; 3; 0; 1])) "binary" inf ninf
    = Ok v.
Proof.
  exact (proj2 (@binary_mode_returns_iff example_env (ints [1; 1; 0; 0])
                  (ints [2; 3; 0; 1]) inf ninf tt)
               (conj eq_refl (conj eq_refl (conj eq_refl
                  (conj (le_n 2) (le_n 2)))))).
Defined.

(** Two labels against three predictions. *)
Lemma binary_input_checks_witness :
  len (vec (ints [1; 0])) = Ok 2%nat
  /\ len (vec (ints [2; 3; 0])) = Ok 3%nat
  /\ 2%nat <> 3%nat
  /\ run (vec (ints [1; 0])) (vec (ints [2; 3; 0])) "binary" inf ninf
     = Raise AssertionError.
Proof.
  assert (H : 2%nat <> 3%nat) by discriminate.
  split; [reflexivity|]. split; [reflexivity|]. split; [exact H|].
  exact (@binary_input_checks example_env (vec (ints [1; 0]))
           (vec (ints [2; 3; 0])) 2%nat 3%nat inf ninf tt eq_refl eq_refl
           (or_introl H)).
Defined.

Lemma binary_scalar_type_error_witness :
  (shape (scalar one) = [] \/ shape (vec (ints [2; 3])) = [])
  /\ run (scalar one) (vec (ints [2; 3])) "binary" inf ninf = Raise TypeError.
Proof.
  split; [left; reflexivity|].
  exact (@binary_scalar_type_error example_env (scalar one)
           (vec (ints [2; 3])) inf ninf tt (or_introl eq_refl)).
Defined.

(** Labels in {0, 1} against labels in {-1, +1}. *)
Lemma binary_depends_on_label_sign_witness :
  forallb isfinite (ints [1; 1; 0; 0]) = true
  /\ forallb isfinite (ints [1; 1; -1; -1]) = true
  /\ positive_mask (ints [1; 1; 0; 0]) = positive_mask (ints [1; 1; -1; -1])
  /\ run (vec (ints [1; 1; 0; 0])) (vec (ints [2; 3; 0; 1])) "binary" inf ninf
     = run (vec (ints [1; 1; -1; -1])) (vec (ints [2; 3; 0; 1])) "binary"
           inf ninf.
Proof.
  do 3 (split; [reflexivity|]).
  exact (@binary_depends_on_label_sign example_env (ints [1; 1; 0; 0])
           (ints [1; 1; -1; -1]) (ints [2; 3; 0; 1]) inf ninf tt
           eq_refl eq_refl eq_refl).
Defined.

Lemma binary_all_labels_positive_witness :
  length (ints [1; 2; 1]) = length (ints [5; 6; 7])
  /\ forallb isfinite (ints [1; 2; 1]) = true
  /\ forallb isfinite (ints [5; 6; 7]) = true
  /\ forallb (fun y => ltb zero y) (ints [1; 2; 1]) = true
  /\ run (vec (ints [1; 2; 1])) (vec (ints [5; 6; 7])) "binary" inf ninf
     = Raise (ValueError not_enough_negative).
Proof.
  do 4 (split; [reflexivity|]).
  exact (@binary_all_labels_positive example_env (ints [1; 2; 1])
           (ints [5; 6; 7]) inf ninf tt eq_refl eq_refl eq_refl eq_refl).
Defined.

Lemma binary_no_label_positive_witness :
  length (ints [0; -1; 0]) = length (ints [5; 6; 7])
  /\ forallb isfinite (ints [0; -1; 0]) = true
  /\ forallb isfinite (ints [5; 6; 7]) = true
  /\ forallb (fun y => negb (ltb zero y)) (ints [0; -1; 0]) = true
  /\ run (vec (ints [0; -1; 0])) (vec (ints [5; 6; 7])) "binary" inf ninf
     = Raise (ValueError not_enough_positive).
Proof.
  do 4 (split; [reflexivity|]).
  exact (@binary_no_label_positive example_env (ints [0; -1; 0])
           (ints [5; 6; 7]) inf ninf tt eq_refl eq_refl eq_refl eq_refl).
Defined.

Lemma binary_label_flip_witness :
  forallb (fun y => isfinite y && negb (eqb y zero)) (ints [1; 1; -1; -1])
  = true
  /\ run (vec (ints [1; 1; -1; -1])) (vec (ints [2; 3; 0; 1])) "binary"
         inf ninf
     = Ok (scalar dprime_2301)
  /\ exists d' : float64,
       run (vec (map opp (ints [1; 1; -1; -1]))) (vec (ints [2; 3; 0; 1]))
           "binary" inf ninf
       = Ok (scalar d')
       /\ same_value dprime_2301 (opp d') = true.
Proof.
  do 2 (split; [reflexivity|]).
  exact (@binary_label_flip example_env (ints [1; 1; -1; -1])
           (ints [2; 3; 0; 1]) tt dprime_2301 eq_refl eq_refl).
Defined.

Lemma rate_shape_mismatch_witness :
  shape (vec [half]) <> shape (vec [half; half])
  /\ run (vec [half]) (vec [half; half]) "rate" inf ninf
     = Raise AssertionError.
Proof.
  assert (H : shape (vec [half]) <> shape (vec [half; half]))
    by discriminate.
  split; [exact H|].
  exact (@rate_shape_mismatch example_env (vec [half]) (vec [half; half])
           inf ninf tt H).
Defined.

Lemma rate_mode_antisymmetric_witness :
  shape (vec [one; half]) = shape (vec [zero; half])
  /\ exists v v' : ndarray,
       run (vec [one; half]) (vec [zero; half]) "rate" inf ninf = Ok v
       /\ run (vec [zero; half]) (vec [one; half]) "rate" inf ninf = Ok v'
       /\ shape v = shape v'
       /\ Forall2 (fun d d' => same_value d (opp d') = true)
                  (data v) (data v').
Proof.
  split; [reflexivity|].
  exact (@rate_mode_antisymmetric example_env (vec [one; half])
           (vec [zero; half]) tt eq_refl).
Defined.

Lemma confusionmat_is_rate_mode_witness :
  one_vs_rest_stats matrix_8237 tt
  = Ok (vec (ints [10; 10]), vec (ints [10; 10]), vec (ints [8; 7]),
        vec (ints [2; 3]), vec (ints [3; 2]), vec (ints [7; 8]))
  /\ shape (vec (ints [8; 7])) = shape (vec (ints [3; 2]))
  /\ run matrix_8237 (scalar nan) "confusionmat" inf ninf
     = run (arr_map2 div (vec (ints [8; 7])) (vec (ints [10; 10])))
           (arr_map2 div (vec (ints [3; 2])) (vec (ints [10; 10])))
           "rate" inf ninf.
Proof.
  do 2 (split; [reflexivity|]).
  exact (@confusionmat_is_rate_mode example_env matrix_8237 (scalar nan)
           inf ninf tt _ _ _ _ _ _ eq_refl eq_refl).
Defined.

Lemma confusionmat_no_positives_witness :
  one_vs_rest_stats matrix_0037 tt
  = Ok (vec (ints [0; 10]), vec (ints [10; 0]), vec (ints [0; 7]),
        vec (ints [0; 3]), vec (ints [3; 0]), vec (ints [7; 0]))
  /\ eqb (of_Z 0) zero = true
  /\ exists v : ndarray,
       run matrix_0037 (scalar nan) "confusionmat" (of_Z 5) (of_Z (-5)) = Ok v
       /\ nth_error (data v) 0 = Some nan.
Proof.
  do 2 (split; [reflexivity|]).
  exact (@confusionmat_no_positives example_env matrix_0037 (scalar nan)
           (of_Z 5) (of_Z (-5)) tt _ _ _ _ _ _ 0%nat
           (of_Z 0) (of_Z 0) (of_Z 3) (of_Z 10)
           eq_refl eq_refl eq_refl eq_refl eq_refl eq_refl eq_refl).
Defined.

(** With the lower means on the positive side the d-prime is negative. *)
Lemma sample_dprime_sign_witness :
  run (vec (ints [0; 1])) (vec (ints [2; 3])) "sample" inf ninf
  = Ok (scalar (opp dprime_2301))
  /\ (isnan (opp dprime_2301) = true
      \/ signbit (opp dprime_2301)
         = signbit (sub (np_mean (vec (ints [0; 1])))
                        (np_mean (vec (ints [2; 3]))))).
Proof.
  split; [reflexivity|].
  exact (@sample_dprime_sign example_env (vec (ints [0; 1]))
           (vec (ints [2; 3])) tt (opp dprime_2301) eq_refl).
Defined.

End MoreExamples.
